(** * The annotated multilevel-inheritance example, embedded in Rocq

    The program is [animal_multilevel_inheritance_annotated.py]: the classes
    [Animal], [Dog], [Reptile], [Lizard], [Snake] and the unrelated
    [Bacterium].  Instances are modelled as Python has them: a class tag and
    an instance dictionary from (name-mangled) attribute names to values.
    Attribute reads and writes follow the interpreter's protocol: properties
    found along the method resolution order win over the instance dictionary,
    which wins over plain class attributes. *)

From Stdlib Require Import ZArith.
From stdpp Require Import gmap strings list fin_maps pretty.

Local Open Scope string_scope.

(** ** Values *)

(** The functions defined in class bodies. *)
Inductive func := Animal_init | Dog_init | Dog_bark | Reptile_init | Snake_init.

(** The properties (getter/setter pairs) defined in class bodies. *)
Inductive prop :=
  Animal_legs | Animal_tail | Dog_name | Reptile_scales | Snake_venom | Snake_tail.

(** The Python values the program handles.  [VBoolType] is the builtin class
    object [bool] itself (what [self.eats = bool] stores); [VMethod f] is the
    function [f] bound to the receiver. *)
Inductive value :=
  | VNone
  | VBool (b : bool)
  | VInt (z : Z)
  | VStr (s : string)
  | VBoolType
  | VMethod (f : func).

#[global] Instance func_eq_dec : EqDecision func.
Proof. solve_decision. Defined.

#[global] Instance prop_eq_dec : EqDecision prop.
Proof. solve_decision. Defined.

#[global] Instance value_eq_dec : EqDecision value.
Proof. solve_decision. Defined.

(** [bool] is a subclass of [int]: [True] and [False] compare as 1 and 0. *)
Definition as_number (v : value) : option Z :=
  match v with
  | VBool b => Some (Z.b2z b)
  | VInt z => Some z
  | _ => None
  end.

(** Python's [a == b] on these values. *)
Definition py_eq (a b : value) : bool :=
  match as_number a, as_number b with
  | Some x, Some y => (x =? y)%Z
  | _, _ => bool_decide (a = b)
  end.

(** ** Exceptions and results *)

Inductive call_error :=
  | MissingArgs (names : list string)
  | TooManyPositional
  | UnexpectedKeyword (k : string)
  | MultipleValues (k : string)
  | TakesNoArguments
  | NotAnInstance.

Inductive exn :=
  | AttributeError (name : string)
  | UnboundLocalError (name : string)
  | TypeError (why : call_error).

Inductive result (A : Type) :=
  | Ok (a : A)
  | Raise (e : exn).
Arguments Ok {A} a.
Arguments Raise {A} e.

#[global] Instance result_ret : MRet result := λ A a, Ok a.
#[global] Instance result_bind : MBind result := λ A B k m,
  match m with
  | Ok a => k a
  | Raise e => Raise e
  end.

(** ** Classes *)

Inductive cls := Animal | Dog | Reptile | Lizard | Snake | Bacterium.

#[global] Instance cls_eq_dec : EqDecision cls.
Proof. solve_decision. Defined.

Definition class_name (c : cls) : string :=
  match c with
  | Animal => "Animal"
  | Dog => "Dog"
  | Reptile => "Reptile"
  | Lizard => "Lizard"
  | Snake => "Snake"
  | Bacterium => "Bacterium"
  end.

(** Method resolution order (every class has a single base, or none). *)
Definition mro (c : cls) : list cls :=
  match c with
  | Animal => [Animal]
  | Dog => [Dog; Animal]
  | Reptile => [Reptile; Animal]
  | Lizard => [Lizard; Reptile; Animal]
  | Snake => [Snake; Reptile; Animal]
  | Bacterium => [Bacterium]
  end.

(** Inside class [c] the identifier [__x] is compiled to [_c__x]. *)
Definition mangle (c : cls) (n : string) : string := "_" +:+ class_name c +:+ n.

Definition Animal__legs : string := Eval cbv in mangle Animal "__legs".
Definition Animal__tail : string := Eval cbv in mangle Animal "__tail".
Definition Dog__name : string := Eval cbv in mangle Dog "__name".
Definition Dog__sound : string := Eval cbv in mangle Dog "__sound".
Definition Reptile__scales : string := Eval cbv in mangle Reptile "__scales".
Definition Snake__venom : string := Eval cbv in mangle Snake "__venom".
Definition Snake__tail : string := Eval cbv in mangle Snake "__tail".

(** What a class body binds a name to. *)
Inductive member :=
  | MAttr (v : value)
  | MProperty (p : prop)
  | MFunction (f : func).

(** The namespace of each class body, as written in the source. *)
Definition class_dict (c : cls) : gmap string member :=
  match c with
  | Animal =>
      list_to_map [("multicellular", MAttr (VBool true));
                   ("__init__", MFunction Animal_init);
                   ("legs", MProperty Animal_legs);
                   ("tail", MProperty Animal_tail)]
  | Dog =>
      list_to_map [("__init__", MFunction Dog_init);
                   ("bark", MFunction Dog_bark);
                   ("name", MProperty Dog_name)]
  | Reptile =>
      list_to_map [("__init__", MFunction Reptile_init);
                   ("scales", MProperty Reptile_scales)]
  | Lizard => ∅
  | Snake =>
      list_to_map [("__init__", MFunction Snake_init);
                   ("venom", MProperty Snake_venom);
                   ("tail", MProperty Snake_tail)]
  | Bacterium =>
      list_to_map [("multicellular", MAttr (VBool false))]
  end.

(** First binding of [n] along a list of classes. *)
Fixpoint lookup_in (l : list cls) (n : string) : option member :=
  match l with
  | [] => None
  | c :: l' =>
      match class_dict c !! n with
      | Some m => Some m
      | None => lookup_in l' n
      end
  end.

Definition type_lookup (c : cls) (n : string) : option member :=
  lookup_in (mro c) n.

(** The classes that follow [c] in a resolution order ([super(c, obj)]). *)
Fixpoint mro_after (c : cls) (l : list cls) : option (list cls) :=
  match l with
  | [] => None
  | d :: l' => if decide (d = c) then Some l' else mro_after c l'
  end.

(** ** Instances *)

Record obj := Obj { ob_type : cls; ob_dict : gmap string value }.

(** Reading and writing an entry of the instance dictionary.  Method bodies
    use these for their private names, which no class body binds (see
    [getattr_instance] and [setattr_instance] below). *)
Definition load (self : obj) (n : string) : result value :=
  match ob_dict self !! n with
  | Some v => Ok v
  | None => Raise (AttributeError n)
  end.

Definition store (self : obj) (n : string) (v : value) : obj :=
  Obj (ob_type self) (<[n:=v]> (ob_dict self)).

(** ** Method bodies *)

(** [Animal.__init__(self, legs, tail)] *)
Definition Animal___init__ (self : obj) (legs tail : value) : obj :=
  let self := store self Animal__legs legs in
  let self := store self Animal__tail tail in
  store self "eats" VBoolType.

Definition Animal_legs_get (self : obj) : result value :=
  load self Animal__legs.

Definition Animal_legs_set (self : obj) (legs : value) : obj :=
  store self Animal__legs legs.

Definition Animal_tail_get (self : obj) : result value :=
  t ← load self Animal__tail;
  if py_eq t (VBool true) then Ok (VStr "has") else Ok (VStr "does not have").

Definition Animal_tail_set (self : obj) (tail : value) : obj :=
  store self Animal__tail tail.

(** [Dog.__init__(self, name, legs=4, tail=True)] *)
Definition Dog___init__ (self : obj) (name legs tail : value) : obj :=
  let self := store self Dog__name name in
  let self := store self Dog__sound (VStr "woof") in
  Animal___init__ self legs tail.

(** [Dog.bark]: the line handed to [print]. *)
Definition Dog_bark_body (self : obj) : result value :=
  load self Dog__sound.

Definition Dog_name_get (self : obj) : result value :=
  load self Dog__name.

Definition Dog_name_set (self : obj) (name : value) : obj :=
  store self Dog__name name.

(** [Reptile.__init__(self, legs, tail=True)]; [super()] resolves to
    [Animal] for every receiver (see [Reptile_super_init]). *)
Definition Reptile___init__ (self : obj) (legs tail : value) : obj :=
  let self := store self Reptile__scales (VBool true) in
  Animal___init__ self legs tail.

Definition Reptile_scales_get (self : obj) : result value :=
  s ← load self Reptile__scales;
  if py_eq s (VBool true) then Ok (VStr "has") else Ok (VStr "does not have").

Definition Reptile_scales_set (self : obj) (scales : value) : obj :=
  store self Reptile__scales scales.

(** [Snake.__init__(self, legs=0, tail=True)]; the parameter [tail] is never
    read, and [super()] resolves to [Reptile] (see [Snake_super_init]). *)
Definition Snake___init__ (self : obj) (legs tail : value) : result obj :=
  let self := store self Snake__venom (VBool false) in
  let self := store self Snake__tail (VBool true) in
  t ← load self Snake__tail;
  Ok (Reptile___init__ self legs t).

Definition Snake_venom_get (self : obj) : result value :=
  v ← load self Snake__venom;
  if py_eq v (VBool false) then Ok (VStr "is not") else Ok (VStr "is").

Definition Snake_venom_set (self : obj) (has_venom : value) : obj :=
  store self Snake__venom has_venom.

Definition Snake_tail_get (self : obj) : result value :=
  t ← load self Snake__tail;
  if py_eq t (VBool true) then Ok (VStr "is mostly") else Ok (VStr "must be dead").

Definition Snake_tail_set (self : obj) (tail : value) : obj :=
  store self Snake__tail tail.

(** ** Properties as descriptors *)

Definition fget (p : prop) : obj → result value :=
  match p with
  | Animal_legs => Animal_legs_get
  | Animal_tail => Animal_tail_get
  | Dog_name => Dog_name_get
  | Reptile_scales => Reptile_scales_get
  | Snake_venom => Snake_venom_get
  | Snake_tail => Snake_tail_get
  end.

Definition fset (p : prop) : obj → value → obj :=
  match p with
  | Animal_legs => Animal_legs_set
  | Animal_tail => Animal_tail_set
  | Dog_name => Dog_name_set
  | Reptile_scales => Reptile_scales_set
  | Snake_venom => Snake_venom_set
  | Snake_tail => Snake_tail_set
  end.

(** What a binding found on the class yields when no instance entry hides
    it. *)
Definition class_value (m : member) (self : obj) : result value :=
  match m with
  | MAttr v => Ok v
  | MProperty p => fget p self
  | MFunction f => Ok (VMethod f)
  end.

(** [obj.n]: a property on the type comes first, then the instance
    dictionary, then any other class binding. *)
Definition getattr (self : obj) (n : string) : result value :=
  match type_lookup (ob_type self) n with
  | Some (MProperty p) => fget p self
  | found =>
      match ob_dict self !! n with
      | Some v => Ok v
      | None =>
          match found with
          | Some m => class_value m self
          | None => Raise (AttributeError n)
          end
      end
  end.

(** [obj.n = v]: a property on the type takes the write (each property of
    the program defines a setter), otherwise the instance dictionary does. *)
Definition setattr (self : obj) (n : string) (v : value) : obj :=
  match type_lookup (ob_type self) n with
  | Some (MProperty p) => fset p self v
  | _ => store self n v
  end.

(** [super(c, obj).n]: the search starts after [c] and never consults the
    instance dictionary. *)
Definition super_getattr (c : cls) (self : obj) (n : string) : result value :=
  match mro_after c (mro (ob_type self)) with
  | None => Raise (TypeError NotAnInstance)
  | Some rest =>
      match lookup_in rest n with
      | Some m => class_value m self
      | None => Raise (AttributeError n)
      end
  end.

(** ** Calls *)

(** A parameter after [self]: its name and its default, if it has one. *)
Record param := Param { p_name : string; p_default : option value }.

Definition signature (f : func) : list param :=
  match f with
  | Animal_init => [Param "legs" None; Param "tail" None]
  | Dog_init =>
      [Param "name" None; Param "legs" (Some (VInt 4)); Param "tail" (Some (VBool true))]
  | Dog_bark => []
  | Reptile_init => [Param "legs" None; Param "tail" (Some (VBool true))]
  | Snake_init => [Param "legs" (Some (VInt 0)); Param "tail" (Some (VBool true))]
  end.

(** Keyword arguments go to the parameter of that name, which must exist and
    be still free. *)
Fixpoint bind_keywords (names : list string) (kw : list (string * value))
    (locals : gmap string value) : result (gmap string value) :=
  match kw with
  | [] => Ok locals
  | (k, v) :: kw' =>
      if decide (k ∈ names) then
        match locals !! k with
        | Some _ => Raise (TypeError (MultipleValues k))
        | None => bind_keywords names kw' (<[k:=v]> locals)
        end
      else Raise (TypeError (UnexpectedKeyword k))
  end.

Definition fill_default (p : param) (locals : gmap string value) : gmap string value :=
  match locals !! p_name p, p_default p with
  | None, Some d => <[p_name p:=d]> locals
  | _, _ => locals
  end.

(** Argument binding of a call: positional arguments fill the parameters in
    order, then keywords, then defaults; what stays unbound is missing. *)
Definition bind_args (sig : list param) (pos : list value)
    (kw : list (string * value)) : result (gmap string value) :=
  let names := p_name <$> sig in
  locals ← bind_keywords names kw (list_to_map (zip names pos));
  if decide (length sig < length pos) then Raise (TypeError TooManyPositional)
  else
    let locals := foldr fill_default locals sig in
    match filter (λ n, locals !! n = None) names with
    | [] => Ok locals
    | missing => Raise (TypeError (MissingArgs missing))
    end.

Definition local (locals : gmap string value) (n : string) : result value :=
  match locals !! n with
  | Some v => Ok v
  | None => Raise (UnboundLocalError n)
  end.

(** Calling a function of the program on a receiver: the new state of the
    receiver and the line printed, if any. *)
Definition call (f : func) (self : obj) (pos : list value)
    (kw : list (string * value)) : result (obj * option value) :=
  locals ← bind_args (signature f) pos kw;
  match f with
  | Animal_init =>
      legs ← local locals "legs";
      tail ← local locals "tail";
      Ok (Animal___init__ self legs tail, None)
  | Dog_init =>
      name ← local locals "name";
      legs ← local locals "legs";
      tail ← local locals "tail";
      Ok (Dog___init__ self name legs tail, None)
  | Dog_bark =>
      line ← Dog_bark_body self;
      Ok (self, Some line)
  | Reptile_init =>
      legs ← local locals "legs";
      tail ← local locals "tail";
      Ok (Reptile___init__ self legs tail, None)
  | Snake_init =>
      legs ← local locals "legs";
      tail ← local locals "tail";
      self' ← Snake___init__ self legs tail;
      Ok (self', None)
  end.

(** Instantiating class [c] with positional arguments [pos] and keyword
    arguments [kw]: a fresh instance with an empty dictionary, initialised
    by the [__init__] its type resolves to.  A class with no [__init__] of
    its own falls back on [object]'s, which accepts no argument. *)
Definition new (c : cls) (pos : list value) (kw : list (string * value)) : result obj :=
  let self := Obj c ∅ in
  match type_lookup c "__init__" with
  | Some (MFunction f) => r ← call f self pos kw; Ok r.1
  | _ =>
      match pos, kw with
      | [], [] => Ok self
      | _, _ => Raise (TypeError TakesNoArguments)
      end
  end.

(** ** Sequences of attribute accesses *)

Inductive action :=
  | Read (n : string)
  | Write (n : string) (v : value).

(** Running accesses in order: the final instance and what each read
    returned. *)
Fixpoint run (self : obj) (l : list action) : obj * list (result value) :=
  match l with
  | [] => (self, [])
  | Read n :: l' =>
      let r := run self l' in (r.1, getattr self n :: r.2)
  | Write n v :: l' => run (setattr self n v) l'
  end.

Definition final (self : obj) (l : list action) : obj := (run self l).1.
Definition observe (self : obj) (l : list action) : list (result value) := (run self l).2.

(** ** The demonstration script *)

(** How a run of the script can stop early: an exception of the program, a
    call of a value that is not callable, or the text of a value that has
    none independent of the run (a bound method prints its address). *)
Inductive failure :=
  | Exception (e : exn)
  | NotCallable (v : value)
  | NoText (v : value).

(** A run either ends or fails, with the lines printed so far. *)
Inductive outcome (A : Type) :=
  | Done (a : A) (out : list string)
  | Failed (f : failure) (out : list string).
Arguments Done {A} a out.
Arguments Failed {A} f out.

Definition io (A : Type) : Type := list string → outcome A.

#[global] Instance io_ret : MRet io := λ A a out, Done a out.
#[global] Instance io_bind : MBind io := λ A B k m out,
  match m out with
  | Done a out' => k a out'
  | Failed f out' => Failed f out'
  end.

Definition stop {A} (f : failure) : io A := λ out, Failed f out.

Definition lift {A} (r : result A) : io A :=
  match r with
  | Ok a => mret a
  | Raise e => stop (Exception e)
  end.

(** [print(s)] *)
Definition print (s : string) : io unit := λ out, Done tt (out ++ [s]).

(** [str(v)], which is also what an f-string field and [print] show. *)
Definition py_str (v : value) : option string :=
  match v with
  | VNone => Some "None"
  | VBool true => Some "True"
  | VBool false => Some "False"
  | VInt z => Some (pretty z)
  | VStr s => Some s
  | VBoolType => Some "<class 'bool'>"
  | VMethod _ => None
  end.

Definition text (v : value) : io string :=
  match py_str v with
  | Some s => mret s
  | None => stop (NoText v)
  end.

(** The field [{obj.n}] of an f-string. *)
Definition field (self : obj) (n : string) : io string :=
  v ← lift (getattr self n); text v.

(** The statement [obj.n(pos, kw)]: the attribute is read and then called.
    Of the values of the model only a bound method and the class [bool] are
    callable; [bool] takes at most one positional argument and its result is
    discarded here. *)
Definition call_method (self : obj) (n : string) (pos : list value)
    (kw : list (string * value)) : io obj :=
  m ← lift (getattr self n);
  match m with
  | VMethod f =>
      r ← lift (call f self pos kw);
      match r.2 with
      | Some line => s ← text line; print s;; mret r.1
      | None => mret r.1
      end
  | VBoolType =>
      match kw with
      | (k, _) :: _ => stop (Exception (TypeError (UnexpectedKeyword k)))
      | [] =>
          if decide (length pos ≤ 1)%nat then mret self
          else stop (Exception (TypeError TooManyPositional))
      end
  | v => stop (NotCallable v)
  end.

(** The body of [if __name__ == "__main__":]. *)
Definition main : io unit :=
  george ← lift (new Dog [VStr "George"] []);
  print "Speak George!";;
  george ← call_method george "bark" [] [];
  name ← field george "name";
  legs ← field george "legs";
  tail ← field george "tail";
  print (name +:+ " has " +:+ legs +:+ " legs and " +:+ tail +:+ " a tail");;
  print "";;
  fido ← lift (new Dog [VStr "Fido"; VInt 3; VBool false] []);
  print "Speak Fido!";;
  fido ← call_method fido "bark" [] [];
  fido ← call_method fido "bark" [] [];
  name ← field fido "name";
  legs ← field fido "legs";
  tail ← field fido "tail";
  print (name +:+ " has " +:+ legs +:+ " legs and " +:+ tail +:+ " a tail");;
  print "";;
  croc ← lift (new Reptile [VInt 4] []);
  legs ← field croc "legs";
  tail ← field croc "tail";
  scales ← field croc "scales";
  print ("A croc has " +:+ legs +:+ " legs, " +:+ tail +:+ " a tail and "
         +:+ scales +:+ " scales");;
  gecko ← lift (new Lizard [VInt 4] []);
  legs ← field gecko "legs";
  tail ← field gecko "tail";
  scales ← field gecko "scales";
  print ("A gecko has " +:+ legs +:+ " legs, " +:+ tail +:+ " a tail and "
         +:+ scales +:+ " scales");;
  print "";;
  rattlesnake ← lift (new Snake [] []);
  let rattlesnake := setattr rattlesnake "venom" (VBool true) in
  legs ← field rattlesnake "legs";
  tail ← field rattlesnake "tail";
  scales ← field rattlesnake "scales";
  venom ← field rattlesnake "venom";
  print ("A rattlesnake has " +:+ legs +:+ " legs, " +:+ tail +:+ " a tail, "
         +:+ scales +:+ " scales, " +:+ "and " +:+ venom +:+ " venomous.");;
  cornsnake ← lift (new Snake [] []);
  let cornsnake := setattr cornsnake "scales" (VBool false) in
  legs ← field cornsnake "legs";
  tail ← field cornsnake "tail";
  scales ← field cornsnake "scales";
  venom ← field cornsnake "venom";
  print ("A cornsnake has " +:+ legs +:+ " legs, " +:+ tail +:+ " a tail, "
         +:+ scales +:+ " scales, " +:+ "and " +:+ venom +:+ " venomous.");;
  print "";;
  let cornsnake := setattr cornsnake "eats" (VBool true) in
  eats ← field cornsnake "eats";
  print ("A cornsnake eats: " +:+ eats);;
  let cornsnake := setattr cornsnake "tail" (VBool false) in
  tail ← field cornsnake "tail";
  print ("A cornsnake without a tail " +:+ tail
         +:+ " because it is only a head :D");;
  v ← lift (super_getattr Snake cornsnake "tail");
  tail ← text v;
  print ("A living cornsnake " +:+ tail +:+ " a tail");;
  let cornsnake := setattr cornsnake "eats" (VBool false) in
  eats ← field cornsnake "eats";
  print ("A cornsnake can eat after it dies: " +:+ eats);;
  print "";;
  multicellular ← field cornsnake "multicellular";
  print ("A cornsnake is multicellular: " +:+ multicellular);;
  print "";;
  unknown_animal ← lift (new Animal [VInt 6; VBool false] []);
  legs ← field unknown_animal "legs";
  tail ← field unknown_animal "tail";
  print ("I'm not sure what kind of Animal has " +:+ legs +:+ " legs and "
         +:+ tail +:+ " a tail!");;
  let unknown_animal := setattr unknown_animal "eats" (VBool true) in
  eats ← field unknown_animal "eats";
  multicellular ← field unknown_animal "multicellular";
  print ("At least we know it is " +:+ eats +:+ " that it eats, and"
         +:+ " it is " +:+ multicellular +:+ " that it is multicellular");;
  print "";;
  strep ← lift (new Bacterium [] []);
  multicellular ← field strep "multicellular";
  print ("Streptococcus is multicellular: " +:+ multicellular).

(** ** Vocabulary of the statements *)

(** The names stored by the method bodies. *)
Definition instance_names : list string :=
  [Animal__legs; Animal__tail; "eats"; Dog__name; Dog__sound;
   Reptile__scales; Snake__venom; Snake__tail].

(** The instances a constructor call can return: the [__init__] the class
    resolves to, run on an empty instance at some arguments. *)
Definition constructed (c : cls) (o : obj) : Prop :=
  match c with
  | Animal => ∃ legs tail, o = Animal___init__ (Obj c ∅) legs tail
  | Dog => ∃ name legs tail, o = Dog___init__ (Obj c ∅) name legs tail
  | Reptile | Lizard => ∃ legs tail, o = Reptile___init__ (Obj c ∅) legs tail
  | Snake => ∃ legs tail, Snake___init__ (Obj c ∅) legs tail = Ok o
  | Bacterium => o = Obj c ∅
  end.

(** The private name each property keeps its flag under. *)
Definition slot (p : prop) : string :=
  match p with
  | Animal_legs => Animal__legs
  | Animal_tail => Animal__tail
  | Dog_name => Dog__name
  | Reptile_scales => Reptile__scales
  | Snake_venom => Snake__venom
  | Snake_tail => Snake__tail
  end.

(** The dictionary entry that [obj.n = v] ends up writing on a [c]. *)
Definition target (c : cls) (n : string) : string :=
  match type_lookup c n with
  | Some (MProperty p) => slot p
  | _ => n
  end.

(** [writes n a]: the access [a] assigns to the attribute [n]. *)
Definition writes (n : string) (a : action) : Prop :=
  match a with
  | Write m _ => m = n
  | Read _ => False
  end.

(** The names the program assigns through: its property setters ([legs],
    [tail], [name], [scales], [venom]) and the public field [eats]. *)
Definition mutators : list string :=
  ["legs"; "tail"; "name"; "scales"; "venom"; "eats"].

(** The accesses of the program: any read, and the writes above. *)
Definition system_access (a : action) : Prop :=
  match a with
  | Read _ => True
  | Write n _ => n ∈ mutators
  end.

(** Two instances are alike when their dictionaries are equal and their
    types resolve every name to the same class binding. *)
Definition alike (a b : obj) : Prop :=
  ob_dict a = ob_dict b ∧
  ∀ n, type_lookup (ob_type a) n = type_lookup (ob_type b) n.

(** Outcomes of two constructor calls that no run of accesses tells apart. *)
Definition same_outcome (a b : result obj) : Prop :=
  match a, b with
  | Ok z, Ok r => ∀ l, observe z l = observe r l
  | Raise e, Raise e' => e = e'
  | _, _ => False
  end.

(** The classes whose instances [Reptile.__init__] initialises. *)
Definition reptiles : list cls := [Reptile; Lizard; Snake].

(** The number of parameters of [f] that have no default. *)
Definition required (f : func) : nat :=
  length (filter (λ p, p_default p = None) (signature f)).

(** The attributes that [Animal] itself gives its instances. *)
Definition Animal_interface : list string :=
  ["legs"; "tail"; "eats"; "multicellular"].

(** [within names a]: the access [a] reads or writes one of [names]. *)
Definition within (names : list string) (a : action) : Prop :=
  match a with
  | Read n => n ∈ names
  | Write n _ => n ∈ names
  end.

(** Two instances agree on the attribute [n] when their types resolve it to
    the same class binding and their dictionaries hold the same under the
    entry it is kept in. *)
Definition agree (a b : obj) (n : string) : Prop :=
  type_lookup (ob_type a) n = type_lookup (ob_type b) n ∧
  ob_dict a !! target (ob_type a) n = ob_dict b !! target (ob_type a) n.

(** The outcome of a run that started after [out] had been printed. *)
Definition prepend {A} (out : list string) (r : outcome A) : outcome A :=
  match r with
  | Done a o => Done a (out ++ o)
  | Failed f o => Failed f (out ++ o)
  end.

(** A run only adds to the output, and does the same whatever was printed
    before. *)
Definition appends {A} (m : io A) : Prop :=
  ∀ out, m out = prepend out (m []).

(** * Properties *)

(** ** The instance dictionary *)

Lemma ob_type_store self n v : ob_type (store self n v) = ob_type self.
Proof. reflexivity. Qed.

Lemma load_store_eq self n v : load (store self n v) n = Ok v.
Proof. unfold load, store; simpl. by rewrite lookup_insert_eq. Qed.

Lemma load_store_ne self n m v : n ≠ m → load (store self n v) m = load self m.
Proof. intros Hne. unfold load, store; simpl. by rewrite lookup_insert_ne. Qed.

Lemma load_lookup self n v : ob_dict self !! n = Some v → load self n = Ok v.
Proof. unfold load. by intros ->. Qed.

(** ** Name resolution on the classes *)

(** Resolve every lookup of a known name on a known class. *)
Ltac resolve_with t :=
  let r := eval vm_compute in t in
  let H := fresh in
  assert (H : t = r) by (vm_compute; reflexivity);
  rewrite !H; clear H.

Ltac resolve :=
  repeat match goal with
  | |- context [type_lookup ?c ?n] => resolve_with (type_lookup c n)
  | |- context [mro_after ?c (mro ?d)] => resolve_with (mro_after c (mro d))
  | |- context [lookup_in ?l ?n] => resolve_with (lookup_in l n)
  end.

(** No class body binds a name the method bodies store under, so for these
    names attribute access is access to the instance dictionary. *)
Lemma instance_names_unbound c n : n ∈ instance_names → type_lookup c n = None.
Proof.
  unfold instance_names. rewrite !elem_of_cons, elem_of_nil.
  intros H; destruct_or!; try done; subst n; destruct c; vm_compute; reflexivity.
Qed.

Lemma getattr_instance self n :
  type_lookup (ob_type self) n = None → getattr self n = load self n.
Proof. unfold getattr, load. by intros ->. Qed.

Lemma setattr_instance self n v :
  type_lookup (ob_type self) n = None → setattr self n v = store self n v.
Proof. unfold setattr. by intros ->. Qed.

(** [super()] in [Reptile.__init__] finds [Animal.__init__], and in
    [Snake.__init__] it finds [Reptile.__init__], whatever the receiver. *)
Lemma Reptile_super_init c rest :
  mro_after Reptile (mro c) = Some rest →
  lookup_in rest "__init__" = Some (MFunction Animal_init).
Proof.
  intros H; destruct c; vm_compute in H; try discriminate H;
    injection H as <-; vm_compute; reflexivity.
Qed.

Lemma Snake_super_init c rest :
  mro_after Snake (mro c) = Some rest →
  lookup_in rest "__init__" = Some (MFunction Reptile_init).
Proof.
  intros H; destruct c; vm_compute in H; try discriminate H;
    injection H as <-; vm_compute; reflexivity.
Qed.

(** A write never changes the type of the receiver. *)
Lemma ob_type_setattr self n v : ob_type (setattr self n v) = ob_type self.
Proof.
  unfold setattr. destruct (type_lookup _ _) as [[?|p|?]|]; try done.
  by destruct p.
Qed.

(** ** Results *)

Lemma bind_Ok {A B} (m : result A) (k : A → result B) b :
  m ≫= k = Ok b → ∃ a, m = Ok a ∧ k a = Ok b.
Proof. destruct m as [a|e]; [by exists a | done]. Qed.

(** Decompose a successful chain of binds into its successful steps. *)
Ltac invert_result H :=
  repeat match type of H with
  | _ ≫= _ = Ok _ =>
      let a := fresh "a" in
      let Ha := fresh "Ha" in
      apply bind_Ok in H as (a & Ha & H)
  end.

(** ** Construction *)

Lemma new_constructed c pos kw o : new c pos kw = Ok o → constructed c o.
Proof.
  unfold new, constructed; destruct c; resolve.
  1-5: intros H; invert_result H; injection H as <-;
       match goal with Hc : call _ _ _ _ = Ok _ |- _ =>
         unfold call in Hc; invert_result Hc; injection Hc as <-
       end; simpl; eauto.
  - destruct pos, kw; by intros [= <-].
Qed.

Lemma Snake_constructed s :
  constructed Snake s →
  ∃ legs, s = Reptile___init__
                (store (store (Obj Snake ∅) Snake__venom (VBool false))
                       Snake__tail (VBool true))
                legs (VBool true).
Proof.
  intros (legs & tail & H). exists legs.
  unfold Snake___init__ in H. rewrite load_store_eq in H.
  by injection H as <-.
Qed.

(** ** Writes as stores *)

Lemma fset_store p self v : fset p self v = store self (slot p) v.
Proof. by destruct p. Qed.

Lemma setattr_store self n v :
  setattr self n v = store self (target (ob_type self) n) v.
Proof.
  unfold setattr, target.
  destruct (type_lookup _ _) as [[?|p|?]|]; try done. apply fset_store.
Qed.

Lemma lookup_setattr self n v k :
  ob_dict (setattr self n v) !! k =
  if decide (target (ob_type self) n = k) then Some v else ob_dict self !! k.
Proof. rewrite setattr_store. unfold store; simpl. apply lookup_insert. Qed.

(** A slot is never a public name of the program. *)
Lemma slot_private p : slot p ∉ ["multicellular"; "eats"].
Proof. destruct p; compute_done. Qed.

Lemma target_ne c n k :
  k ∈ ["multicellular"; "eats"] → n ≠ k → target c n ≠ k.
Proof.
  intros Hk Hn. unfold target.
  destruct (type_lookup c n) as [[?|p|?]|]; try done.
  intros <-. by apply (slot_private p).
Qed.

(** Getters only look at the instance dictionary. *)
Lemma fget_dict p a b : ob_dict a = ob_dict b → fget p a = fget p b.
Proof. intros H. destruct p; simpl; unfold Animal_legs_get, Animal_tail_get,
  Dog_name_get, Reptile_scales_get, Snake_venom_get, Snake_tail_get, load;
  by rewrite H. Qed.

Lemma getattr_dict a b n :
  type_lookup (ob_type a) n = type_lookup (ob_type b) n →
  ob_dict a = ob_dict b →
  getattr a n = getattr b n.
Proof.
  intros Ht Hd. unfold getattr. rewrite Ht, Hd. clear Ht.
  destruct (type_lookup (ob_type b) n) as [[?|p|?]|]; simpl; try done.
  by apply fget_dict.
Qed.

(** ** Runs of accesses *)

Lemma final_Read self n l : final self (Read n :: l) = final self l.
Proof. reflexivity. Qed.

Lemma final_Write self n v l :
  final self (Write n v :: l) = final (setattr self n v) l.
Proof. reflexivity. Qed.

Lemma ob_type_final self l : ob_type (final self l) = ob_type self.
Proof.
  revert self; induction l as [|[n|n v] l IH]; intros self; try done.
  - by rewrite final_Read.
  - by rewrite final_Write, IH, ob_type_setattr.
Qed.

(** An entry that no write of a run targets is left as it was. *)
Lemma final_lookup_frame self l k :
  Forall (λ a, ∀ n, writes n a → target (ob_type self) n ≠ k) l →
  ob_dict (final self l) !! k = ob_dict self !! k.
Proof.
  intros Hl; revert self Hl.
  induction l as [|[n|n v] l IH]; intros self Hl; [done|..];
    apply Forall_cons in Hl as [Ha Hl].
  - rewrite final_Read. by apply IH.
  - rewrite final_Write, IH by (by rewrite ob_type_setattr).
    rewrite lookup_setattr. apply decide_False. by apply Ha.
Qed.

(** A public name that a run never assigns keeps its dictionary entry. *)
Lemma final_lookup_untouched self l k :
  k ∈ ["multicellular"; "eats"] →
  Forall (λ a, ¬ writes k a) l →
  ob_dict (final self l) !! k = ob_dict self !! k.
Proof.
  intros Hk Hl. apply final_lookup_frame.
  eapply Forall_impl; [exact Hl|].
  intros a Ha n Hn. apply target_ne; [done|].
  intros ->. by apply Ha.
Qed.

(** ** What construction leaves in the dictionary *)

(** Replace a constructed instance by the initialiser run that built it. *)
Ltac constructed_cases c H :=
  apply new_constructed in H;
  destruct c;
  [ destruct H as (? & ? & ->)
  | destruct H as (? & ? & ? & ->)
  | destruct H as (? & ? & ->)
  | destruct H as (? & ? & ->)
  | apply Snake_constructed in H as (? & ->)
  | try done; try (unfold constructed in H; subst) ].

Lemma new_eats c pos kw o :
  c ≠ Bacterium → new c pos kw = Ok o → ob_dict o !! "eats" = Some VBoolType.
Proof. intros Hc H. constructed_cases c H; vm_compute; reflexivity. Qed.

Lemma new_type c pos kw o : new c pos kw = Ok o → ob_type o = c.
Proof. intros H. constructed_cases c H; reflexivity. Qed.

(** ** Snake: the two tail flags *)

(** No access of the program writes the Animal-level tail flag of a Snake:
    its [tail] setter is the Snake's own. *)
Lemma Snake_keeps_parent_tail l :
  Forall system_access l →
  Forall (λ a, ∀ n, writes n a → target Snake n ≠ Animal__tail) l.
Proof.
  intros Hl. eapply Forall_impl; [exact Hl|].
  intros [m|m v]; simpl; [done|].
  unfold mutators. rewrite !elem_of_cons, elem_of_nil.
  intros Hm n <-. destruct_or!; try done; subst m; compute_done.
Qed.

Lemma super_Snake_tail s :
  ob_type s = Snake → super_getattr Snake s "tail" = Animal_tail_get s.
Proof. unfold super_getattr. intros ->. by resolve. Qed.

(** C1. Every Snake a constructor call returns, whatever arguments the call
    passed (and so whatever tail value), holds [True] in both the Snake-level
    and the Animal-level tail flag and reads "is mostly" through [tail];
    after [tail = False] the same read gives "must be dead" while the parent
    view [super(Snake, s).tail] still gives "has".  The parent view gives
    "has" after any run of accesses of the program, and the constructor
    succeeds on every pair of positional arguments, on one and on none. *)
Theorem Snake_tail_shadowing :
  (∀ legs tail : value,
     (∃ s, new Snake [legs; tail] [] = Ok s) ∧
     (∃ s, new Snake [legs] [("tail", tail)] = Ok s) ∧
     (∃ s, new Snake [legs] [] = Ok s) ∧
     (∃ s, new Snake [] [] = Ok s)) ∧
  (∀ pos kw s,
     new Snake pos kw = Ok s →
     ob_dict s !! Snake__tail = Some (VBool true) ∧
     ob_dict s !! Animal__tail = Some (VBool true) ∧
     getattr s "tail" = Ok (VStr "is mostly") ∧
     getattr (setattr s "tail" (VBool false)) "tail" = Ok (VStr "must be dead") ∧
     super_getattr Snake (setattr s "tail" (VBool false)) "tail" = Ok (VStr "has")) ∧
  (∀ pos kw s l,
     new Snake pos kw = Ok s →
     Forall system_access l →
     super_getattr Snake (final s l) "tail" = Ok (VStr "has")).
Proof.
  split; [|split].
  - intros legs tail. repeat split; eexists; vm_compute; reflexivity.
  - intros pos kw s H.
    apply new_constructed, Snake_constructed in H as [legs ->].
    repeat split; vm_compute; reflexivity.
  - intros pos kw s l H Hl.
    pose proof (new_type _ _ _ _ H) as Ht.
    rewrite super_Snake_tail by (by rewrite ob_type_final).
    unfold Animal_tail_get.
    rewrite (load_lookup _ _ (VBool true)); [reflexivity|].
    rewrite final_lookup_frame by (rewrite Ht; by apply Snake_keeps_parent_tail).
    apply new_constructed, Snake_constructed in H as [legs ->].
    vm_compute; reflexivity.
Qed.

Lemma Snake_tail_shadowing_witness :
  new Snake [VInt 0; VBool false] [] = Ok (Obj Snake (list_to_map [
    (Snake__venom, VBool false); (Snake__tail, VBool true);
    (Reptile__scales, VBool true); (Animal__legs, VInt 0);
    (Animal__tail, VBool true); ("eats", VBoolType)])) ∧
  getattr (setattr (Obj Snake (list_to_map [
    (Snake__venom, VBool false); (Snake__tail, VBool true);
    (Reptile__scales, VBool true); (Animal__legs, VInt 0);
    (Animal__tail, VBool true); ("eats", VBoolType)])) "tail" (VBool false)) "tail"
    = Ok (VStr "must be dead").
Proof.
  split; [vm_compute; reflexivity|].
  apply (proj1 (proj2 Snake_tail_shadowing) [VInt 0; VBool false] []).
  vm_compute; reflexivity.
Defined.

(** ** The [eats] field *)

(** C2. On an instance of [Animal] or of a class derived from it, as
    returned by a constructor call, [eats] reads as the class object [bool]
    for as long as nothing assigns it; that marker is neither [True] nor
    [False], as a value and under [==]; and once a boolean is assigned to
    [eats], that boolean is what a read returns. *)
Theorem eats_unset_until_assigned c pos kw o :
  c ≠ Bacterium →
  new c pos kw = Ok o →
  getattr o "eats" = Ok VBoolType ∧
  (∀ l, Forall (λ a, ¬ writes "eats" a) l →
        getattr (final o l) "eats" = Ok VBoolType) ∧
  (∀ b, VBoolType ≠ VBool b ∧
        py_eq VBoolType (VBool b) = false ∧ py_eq (VBool b) VBoolType = false) ∧
  (∀ l b, getattr (setattr (final o l) "eats" (VBool b)) "eats" = Ok (VBool b)).
Proof.
  intros Hc H.
  assert (Hget : ∀ x, getattr x "eats" = load x "eats").
  { intros x. apply getattr_instance, instance_names_unbound. compute_done. }
  assert (Hfresh : ∀ l, Forall (λ a, ¬ writes "eats" a) l →
                        getattr (final o l) "eats" = Ok VBoolType).
  { intros l Hl. rewrite Hget. apply load_lookup.
    rewrite final_lookup_untouched by (done || compute_done).
    by eapply new_eats. }
  split; [|split; [|split]].
  - apply (Hfresh []). constructor.
  - exact Hfresh.
  - by intros [].
  - intros l b. rewrite Hget. apply load_lookup.
    rewrite lookup_setattr. rewrite decide_True; [done|].
    unfold target.
    by rewrite instance_names_unbound by compute_done.
Qed.

Lemma eats_unset_until_assigned_witness :
  Snake ≠ Bacterium ∧
  new Snake [] [] = Ok (Obj Snake (list_to_map [
    (Snake__venom, VBool false); (Snake__tail, VBool true);
    (Reptile__scales, VBool true); (Animal__legs, VInt 0);
    (Animal__tail, VBool true); ("eats", VBoolType)])) ∧
  getattr (Obj Snake (list_to_map [
    (Snake__venom, VBool false); (Snake__tail, VBool true);
    (Reptile__scales, VBool true); (Animal__legs, VInt 0);
    (Animal__tail, VBool true); ("eats", VBoolType)])) "eats" = Ok VBoolType.
Proof.
  split; [done|]. split; [vm_compute; reflexivity|].
  apply (eats_unset_until_assigned Snake [] []); [done|].
  vm_compute; reflexivity.
Defined.

(** ** Dog: defaults and overrides *)

(** C3. [Dog(name)] has 4 legs and reads "has" through [tail];
    [Dog(name, 3, False)], also written with keywords, has 3 legs and reads
    "does not have". *)
Theorem Dog_defaults_and_overrides (name : value) :
  (∃ d, new Dog [name] [] = Ok d ∧
        getattr d "legs" = Ok (VInt 4) ∧ getattr d "tail" = Ok (VStr "has")) ∧
  (∃ d, new Dog [name; VInt 3; VBool false] [] = Ok d ∧
        getattr d "legs" = Ok (VInt 3) ∧
        getattr d "tail" = Ok (VStr "does not have")) ∧
  (∃ d, new Dog [name] [("legs", VInt 3); ("tail", VBool false)] = Ok d ∧
        getattr d "legs" = Ok (VInt 3) ∧
        getattr d "tail" = Ok (VStr "does not have")).
Proof.
  split; [|split].
  - exists (Dog___init__ (Obj Dog ∅) name (VInt 4) (VBool true)).
    split; [|split]; vm_compute; reflexivity.
  - exists (Dog___init__ (Obj Dog ∅) name (VInt 3) (VBool false)).
    split; [|split]; vm_compute; reflexivity.
  - exists (Dog___init__ (Obj Dog ∅) name (VInt 3) (VBool false)).
    split; [|split]; vm_compute; reflexivity.
Qed.

(** ** Snake: venom *)

Lemma getattr_venom s :
  ob_type s = Snake → getattr s "venom" = Snake_venom_get s.
Proof. unfold getattr. intros ->. by resolve. Qed.

Lemma setattr_venom s v :
  ob_type s = Snake → setattr s "venom" v = Snake_venom_set s v.
Proof. unfold setattr. intros ->. by resolve. Qed.

(** C4. On every Snake the venom getter reads "is not" when the venom flag
    is [False] and "is" when it is [True], both for a flag found in the
    dictionary and for one just assigned; a Snake returned by a constructor
    call reads "is not", and "is" after [venom = True]. *)
Theorem Snake_venom_wording :
  (∀ s (b : bool),
     ob_type s = Snake →
     ob_dict s !! Snake__venom = Some (VBool b) →
     getattr s "venom" = Ok (VStr (if b then "is" else "is not"))) ∧
  (∀ s (b : bool),
     ob_type s = Snake →
     getattr (setattr s "venom" (VBool b)) "venom"
       = Ok (VStr (if b then "is" else "is not"))) ∧
  (∀ pos kw s,
     new Snake pos kw = Ok s →
     getattr s "venom" = Ok (VStr "is not") ∧
     getattr (setattr s "venom" (VBool true)) "venom" = Ok (VStr "is")).
Proof.
  assert (Hflag : ∀ s (b : bool), ob_type s = Snake →
    ob_dict s !! Snake__venom = Some (VBool b) →
    getattr s "venom" = Ok (VStr (if b then "is" else "is not"))).
  { intros s b Hs Hb. rewrite getattr_venom by done.
    unfold Snake_venom_get. rewrite (load_lookup _ _ _ Hb). by destruct b. }
  split; [exact Hflag|]. split.
  - intros s b Hs. apply Hflag.
    + by rewrite ob_type_setattr.
    + rewrite setattr_venom by done. apply lookup_insert_eq.
  - intros pos kw s H.
    apply new_constructed, Snake_constructed in H as [legs ->].
    split; vm_compute; reflexivity.
Qed.

Lemma Snake_venom_wording_witness :
  ob_type (Obj Snake {[Snake__venom := VBool true]}) = Snake ∧
  ob_dict (Obj Snake {[Snake__venom := VBool true]}) !! Snake__venom
    = Some (VBool true) ∧
  getattr (Obj Snake {[Snake__venom := VBool true]}) "venom" = Ok (VStr "is").
Proof.
  split; [reflexivity|]. split; [vm_compute; reflexivity|].
  apply (proj1 Snake_venom_wording _ true); [reflexivity|].
  vm_compute; reflexivity.
Defined.

(** The getters do not agree on a flag that is neither [True] nor [False]:
    the venom getter tests against [False] and so reads the affirmative
    "is", the tail and scales getters test against [True] and read the
    negative wording. *)
Lemma wording_of_None s :
  ob_type s = Snake →
  getattr (setattr s "venom" VNone) "venom" = Ok (VStr "is") ∧
  getattr (setattr s "tail" VNone) "tail" = Ok (VStr "must be dead") ∧
  getattr (setattr s "scales" VNone) "scales" = Ok (VStr "does not have").
Proof.
  destruct s as [c d]; simpl; intros ->.
  unfold getattr, setattr; simpl ob_type; resolve; simpl.
  unfold Snake_venom_get, Snake_tail_get, Reptile_scales_get,
    Snake_venom_set, Snake_tail_set, Reptile_scales_set.
  by rewrite !load_store_eq.
Qed.

(** ** The class attribute [multicellular] *)

Lemma system_access_multicellular l :
  Forall system_access l → Forall (λ a, ¬ writes "multicellular" a) l.
Proof.
  intros Hl. eapply Forall_impl; [exact Hl|].
  intros [n|n v]; simpl; [tauto|].
  intros Hin ->. revert Hin. compute_done.
Qed.

Lemma new_multicellular c pos kw o :
  new c pos kw = Ok o → ob_dict o !! "multicellular" = None.
Proof. intros H. constructed_cases c H; vm_compute; reflexivity. Qed.

(** C5. On an instance returned by a constructor call, after any run of
    accesses of the program (reads of any attribute, writes through the
    setters and to [eats], with any values), [multicellular] reads [True] on
    an [Animal], [Dog], [Reptile], [Lizard] or [Snake] and [False] on a
    [Bacterium]. *)
Theorem multicellular_constant c pos kw o l :
  new c pos kw = Ok o →
  Forall system_access l →
  getattr (final o l) "multicellular"
    = Ok (VBool (match c with Bacterium => false | _ => true end)).
Proof.
  intros H Hl. unfold getattr.
  rewrite ob_type_final, (new_type _ _ _ _ H).
  rewrite final_lookup_untouched, (new_multicellular _ _ _ _ H);
    [|compute_done|by apply system_access_multicellular].
  destruct c; resolve; reflexivity.
Qed.

Lemma multicellular_constant_witness :
  new Bacterium [] [] = Ok (Obj Bacterium ∅) ∧
  Forall system_access [Write "eats" (VBool true); Read "legs"] ∧
  getattr (final (Obj Bacterium ∅) [Write "eats" (VBool true); Read "legs"])
    "multicellular" = Ok (VBool false).
Proof.
  split; [vm_compute; reflexivity|].
  assert (Hl : Forall system_access [Write "eats" (VBool true); Read "legs"]).
  { repeat constructor. }
  split; [exact Hl|].
  apply (multicellular_constant Bacterium [] []); [vm_compute; reflexivity|exact Hl].
Defined.

(** Outside the program's accesses, Python lets an instance attribute of the
    same name hide the class attribute; the class value itself stays. *)
Lemma multicellular_shadowed c pos kw o v :
  new c pos kw = Ok o →
  getattr (setattr o "multicellular" v) "multicellular" = Ok v.
Proof.
  intros H. rewrite setattr_store. unfold getattr, target.
  rewrite ob_type_store, (new_type _ _ _ _ H).
  destruct c; resolve; simpl; by rewrite lookup_insert_eq.
Qed.

(** ** Lizard and Reptile *)

(** [Lizard]'s body is [pass]: every name resolves as on [Reptile]. *)
Lemma Lizard_resolves_as_Reptile n :
  type_lookup Lizard n = type_lookup Reptile n.
Proof.
  unfold type_lookup. cbn [mro lookup_in].
  change (class_dict Lizard) with (∅ : gmap string member).
  by rewrite lookup_empty.
Qed.

Lemma observe_Read self n l :
  observe self (Read n :: l) = getattr self n :: observe self l.
Proof. reflexivity. Qed.

Lemma observe_Write self n v l :
  observe self (Write n v :: l) = observe (setattr self n v) l.
Proof. reflexivity. Qed.

Lemma alike_setattr a b n v :
  alike a b → alike (setattr a n v) (setattr b n v).
Proof.
  intros [Hd Ht]. split.
  - rewrite !setattr_store. unfold target, store; simpl.
    by rewrite Ht, Hd.
  - intros m. by rewrite !ob_type_setattr.
Qed.

Lemma alike_observe a b l : alike a b → observe a l = observe b l.
Proof.
  revert a b; induction l as [|[n|n v] l IH]; intros a b Hab; [done|..].
  - rewrite !observe_Read. f_equal; [|by apply IH].
    destruct Hab as [Hd Ht]. by apply getattr_dict.
  - rewrite !observe_Write. by apply IH, alike_setattr.
Qed.

Lemma Reptile_init_alike legs tail :
  alike (Reptile___init__ (Obj Lizard ∅) legs tail)
        (Reptile___init__ (Obj Reptile ∅) legs tail).
Proof. split; [reflexivity|]. intros n. apply Lizard_resolves_as_Reptile. Qed.

(** C6. [Lizard] and [Reptile] called on the same arguments either both raise
    the same exception or return instances on which every run of reads and
    writes, of any attributes and values, returns the same results; with 4
    as the leg count, and with or without a tail argument, both calls
    succeed. *)
Theorem Lizard_behaves_as_Reptile :
  (∀ pos kw, same_outcome (new Lizard pos kw) (new Reptile pos kw)) ∧
  (∃ z r, new Lizard [VInt 4] [] = Ok z ∧ new Reptile [VInt 4] [] = Ok r ∧
          ∀ l, observe z l = observe r l) ∧
  (∀ tail, ∃ z r,
     new Lizard [VInt 4; tail] [] = Ok z ∧ new Reptile [VInt 4; tail] [] = Ok r ∧
     ∀ l, observe z l = observe r l).
Proof.
  split; [|split].
  - intros pos kw. unfold new. resolve. unfold call.
    destruct (bind_args _ _ _) as [locals|e]; [|done]; simpl.
    destruct (local locals "legs") as [legs|e]; [|done]; simpl.
    destruct (local locals "tail") as [tail|e]; [|done]; simpl.
    intros l. apply alike_observe, Reptile_init_alike.
  - exists (Reptile___init__ (Obj Lizard ∅) (VInt 4) (VBool true)),
           (Reptile___init__ (Obj Reptile ∅) (VInt 4) (VBool true)).
    split; [vm_compute; reflexivity|]. split; [vm_compute; reflexivity|].
    intros l. apply alike_observe, Reptile_init_alike.
  - intros tail.
    exists (Reptile___init__ (Obj Lizard ∅) (VInt 4) tail),
           (Reptile___init__ (Obj Reptile ∅) (VInt 4) tail).
    split; [vm_compute; reflexivity|]. split; [vm_compute; reflexivity|].
    intros l. apply alike_observe, Reptile_init_alike.
Qed.

(** ** Argument binding *)

(** Keywords only bind the names they carry. *)
Lemma bind_keywords_frame names kw locals locals' k :
  bind_keywords names kw locals = Ok locals' →
  k ∉ kw.*1 →
  locals' !! k = locals !! k.
Proof.
  revert locals; induction kw as [|[k' v] kw IH]; intros locals; simpl.
  - by intros [= <-].
  - rewrite not_elem_of_cons. intros H [Hk Hkw].
    case_decide; [|done].
    destruct (locals !! k') eqn:Hl; [done|].
    rewrite (IH _ H Hkw). by rewrite lookup_insert_ne.
Qed.

(** Binding fails with a [TypeError] only. *)
Lemma bind_keywords_Raise names kw locals e :
  bind_keywords names kw locals = Raise e → ∃ why, e = TypeError why.
Proof.
  revert locals; induction kw as [|[k' v] kw IH]; intros locals; simpl; [done|].
  case_decide; [|intros [= <-]; eauto].
  destruct (locals !! k'); [intros [= <-]; eauto|]. apply IH.
Qed.

Lemma fill_default_no_default p locals :
  p_default p = None → fill_default p locals = locals.
Proof. unfold fill_default. intros ->. by destruct (locals !! _). Qed.

Lemma fill_default_lookup_ne p locals k :
  p_name p ≠ k → fill_default p locals !! k = locals !! k.
Proof.
  intros Hne. unfold fill_default.
  destruct (locals !! p_name p), (p_default p); try done.
  by rewrite lookup_insert_ne.
Qed.

(** ** Reptile: the required leg count *)

(** C7. [Reptile()] raises the missing-argument [TypeError] naming [legs],
    also when a tail is passed by keyword; no call without positional
    arguments and without a [legs] keyword returns an instance; and
    [Reptile(legs)] returns an instance holding [legs] whose tail flag is
    the default [True]. *)
Theorem Reptile_requires_legs :
  new Reptile [] [] = Raise (TypeError (MissingArgs ["legs"])) ∧
  (∀ tail, new Reptile [] [("tail", tail)]
             = Raise (TypeError (MissingArgs ["legs"]))) ∧
  (∀ kw, "legs" ∉ kw.*1 → ∃ why, new Reptile [] kw = Raise (TypeError why)) ∧
  (∀ legs, ∃ r, new Reptile [legs] [] = Ok r ∧
                getattr r "legs" = Ok legs ∧
                ob_dict r !! Animal__tail = Some (VBool true) ∧
                getattr r "tail" = Ok (VStr "has")).
Proof.
  split; [vm_compute; reflexivity|].
  split; [intros tail; vm_compute; reflexivity|].
  split.
  - intros kw Hkw. unfold new. resolve. unfold call, bind_args.
    cbn [signature fmap list_fmap p_name zip zip_with length].
    destruct (bind_keywords _ kw _) as [locals|e] eqn:Hb; simpl.
    + assert (Hlegs : fill_default (Param "legs" None)
                        (fill_default (Param "tail" (Some (VBool true))) locals)
                      !! "legs" = None).
      { rewrite fill_default_no_default by done.
        rewrite fill_default_lookup_ne by done.
        rewrite (bind_keywords_frame _ _ _ _ _ Hb Hkw). apply lookup_empty. }
      rewrite filter_cons, decide_True by exact Hlegs. simpl. eauto.
    + apply bind_keywords_Raise in Hb as [why ->]. eauto.
  - intros legs. exists (Reptile___init__ (Obj Reptile ∅) legs (VBool true)).
    split; [vm_compute; reflexivity|]. split; [vm_compute; reflexivity|].
    split; vm_compute; reflexivity.
Qed.

Lemma Reptile_requires_legs_witness :
  ("legs" ∉ [("tail", VBool false)].*1) ∧
  ∃ why, new Reptile [] [("tail", VBool false)] = Raise (TypeError why).
Proof.
  assert (H : "legs" ∉ [("tail", VBool false)].*1) by compute_done.
  split; [exact H|].
  exact (proj1 (proj2 (proj2 Reptile_requires_legs)) _ H).
Defined.

(** ** Bacterium *)

(** The body of [Bacterium] binds [multicellular] and nothing else. *)
Lemma class_dict_Bacterium :
  class_dict Bacterium = {["multicellular" := MAttr (VBool false)]}.
Proof. reflexivity. Qed.

Lemma Bacterium_unbound n :
  n ≠ "multicellular" → type_lookup Bacterium n = None.
Proof.
  intros Hn. unfold type_lookup. cbn [mro lookup_in].
  rewrite class_dict_Bacterium. by rewrite lookup_singleton_ne.
Qed.

(** C8. A Bacterium, as its constructor returns it, has an empty instance
    dictionary and a class that binds [multicellular] only: reading [legs],
    [tail], [scales] or [eats] raises [AttributeError], and [multicellular]
    reads [False]. *)
Theorem Bacterium_has_no_animal_members pos kw b :
  new Bacterium pos kw = Ok b →
  ob_dict b = ∅ ∧
  dom (class_dict Bacterium) = {["multicellular"]} ∧
  (∀ n, n ∈ ["legs"; "tail"; "scales"; "eats"] →
        getattr b n = Raise (AttributeError n)) ∧
  getattr b "multicellular" = Ok (VBool false).
Proof.
  intros H. apply new_constructed in H. simpl in H. subst b.
  split; [reflexivity|]. split; [|split].
  - rewrite class_dict_Bacterium. apply dom_singleton_L.
  - intros n Hn. unfold getattr. simpl ob_type. simpl ob_dict.
    rewrite Bacterium_unbound, lookup_empty; [done|].
    intros ->. revert Hn. compute_done.
  - vm_compute; reflexivity.
Qed.

Lemma Bacterium_has_no_animal_members_witness :
  new Bacterium [] [] = Ok (Obj Bacterium ∅) ∧
  getattr (Obj Bacterium ∅) "legs" = Raise (AttributeError "legs").
Proof.
  split; [vm_compute; reflexivity|].
  apply (Bacterium_has_no_animal_members [] []).
  - vm_compute; reflexivity.
  - compute_done.
Defined.

(** ** Animal: [legs] and [tail] *)

Lemma Animal_derived_legs c :
  c ≠ Bacterium → type_lookup c "legs" = Some (MProperty Animal_legs).
Proof. intros Hc. destruct c; try done; vm_compute; reflexivity. Qed.

Lemma Animal_derived_tail c :
  c ≠ Bacterium → c ≠ Snake →
  type_lookup c "tail" = Some (MProperty Animal_tail).
Proof. intros Hc Hs. destruct c; try done; vm_compute; reflexivity. Qed.

Lemma Animal_tail_set_get self (b : bool) :
  Animal_tail_get (Animal_tail_set self (VBool b))
    = Ok (VStr (if b then "has" else "does not have")).
Proof.
  unfold Animal_tail_get, Animal_tail_set. rewrite load_store_eq.
  by destruct b.
Qed.

(** C9. On every instance of [Animal] or of a class derived from it,
    whatever its dictionary holds, a read of [legs] after [legs = v] returns
    [v] itself.  On every such instance that is not a Snake, [tail = b] for a
    boolean [b] stores [b] itself and a read of [tail] then returns "has" for
    [True] and "does not have" for [False]; and on every instance, Snakes
    included, [Animal]'s own tail getter after [Animal]'s own tail setter
    returns that wording. *)
Theorem legs_tail_round_trip (o : obj) :
  ob_type o ≠ Bacterium →
  (∀ v, getattr (setattr o "legs" v) "legs" = Ok v) ∧
  (ob_type o ≠ Snake →
   ∀ b : bool,
     ob_dict (setattr o "tail" (VBool b)) !! Animal__tail = Some (VBool b) ∧
     getattr (setattr o "tail" (VBool b)) "tail"
       = Ok (VStr (if b then "has" else "does not have"))) ∧
  (∀ b : bool,
     Animal_tail_get (Animal_tail_set o (VBool b))
       = Ok (VStr (if b then "has" else "does not have"))).
Proof.
  intros Hc. split; [|split].
  - intros v. unfold getattr, setattr.
    rewrite (Animal_derived_legs _ Hc). simpl fset.
    unfold Animal_legs_set. rewrite ob_type_store, (Animal_derived_legs _ Hc).
    apply load_store_eq.
  - intros Hs b. unfold getattr, setattr.
    rewrite (Animal_derived_tail _ Hc Hs). simpl fset.
    unfold Animal_tail_set at 2. rewrite ob_type_store.
    rewrite (Animal_derived_tail _ Hc Hs). simpl fget.
    split; [apply lookup_insert_eq | apply Animal_tail_set_get].
  - apply Animal_tail_set_get.
Qed.

Lemma legs_tail_round_trip_witness :
  ob_type (Obj Dog ∅) ≠ Bacterium ∧
  ob_type (Obj Dog ∅) ≠ Snake ∧
  getattr (setattr (Obj Dog ∅) "legs" (VStr "three")) "legs" = Ok (VStr "three") ∧
  getattr (setattr (Obj Dog ∅) "tail" (VBool false)) "tail"
    = Ok (VStr "does not have").
Proof.
  assert (Hb : ob_type (Obj Dog ∅) ≠ Bacterium) by done.
  assert (Hs : ob_type (Obj Dog ∅) ≠ Snake) by done.
  split; [exact Hb|]. split; [exact Hs|].
  destruct (legs_tail_round_trip (Obj Dog ∅) Hb) as (Hlegs & Htail & _).
  split; [apply Hlegs | apply (Htail Hs false)].
Defined.

(** The Snake's own pair is the one kept out above: the write goes to the
    Snake-level flag and the read uses the Snake's wording. *)
Lemma Snake_tail_round_trip s (b : bool) :
  ob_type s = Snake →
  getattr (setattr s "tail" (VBool b)) "tail"
    = Ok (VStr (if b then "is mostly" else "must be dead")) ∧
  ob_dict (setattr s "tail" (VBool b)) !! Animal__tail = ob_dict s !! Animal__tail.
Proof.
  destruct s as [c d]; simpl; intros ->.
  unfold getattr, setattr; simpl ob_type; resolve; simpl.
  unfold Snake_tail_get, Snake_tail_set. rewrite load_store_eq.
  split; [by destruct b|].
  simpl. by rewrite lookup_insert_ne by compute_done.
Qed.

(** ** Reptile: scales *)

(** No constructor takes a [scales] argument. *)
Lemma no_scales_parameter f : "scales" ∉ p_name <$> signature f.
Proof. destruct f; compute_done. Qed.

Lemma bind_args_unexpected sig pos k v kw :
  k ∉ p_name <$> sig →
  bind_args sig pos ((k, v) :: kw) = Raise (TypeError (UnexpectedKeyword k)).
Proof. intros Hk. unfold bind_args. simpl. by rewrite decide_False. Qed.

(** C10. A [Reptile], [Lizard] or [Snake] returned by a constructor call,
    whatever the arguments, holds [True] as its scales flag and reads "has"
    through [scales]; the constructors have no [scales] parameter, and a
    call that passes one by keyword raises a [TypeError]. *)
Theorem Reptile_scales_default c :
  c ∈ reptiles →
  (∀ pos kw o,
     new c pos kw = Ok o →
     ob_dict o !! Reptile__scales = Some (VBool true) ∧
     getattr o "scales" = Ok (VStr "has")) ∧
  (∀ legs, ∃ o, new c [legs] [] = Ok o) ∧
  (∀ f, type_lookup c "__init__" = Some (MFunction f) →
        "scales" ∉ p_name <$> signature f) ∧
  (∀ pos v kw,
     new c pos (("scales", v) :: kw)
       = Raise (TypeError (UnexpectedKeyword "scales"))).
Proof.
  intros Hc. split; [|split; [|split]].
  - intros pos kw o H.
    constructed_cases c H; try (exfalso; revert Hc; compute_done);
      split; vm_compute; reflexivity.
  - intros legs.
    destruct c; try (exfalso; revert Hc; compute_done);
      eexists; vm_compute; reflexivity.
  - intros f _. apply no_scales_parameter.
  - intros pos v kw. unfold new.
    destruct c; try (exfalso; revert Hc; compute_done); resolve;
      unfold call; by rewrite bind_args_unexpected by apply no_scales_parameter.
Qed.

Lemma Reptile_scales_default_witness :
  Lizard ∈ reptiles ∧
  new Lizard [VInt 4] [] = Ok (Obj Lizard (list_to_map [
    (Reptile__scales, VBool true); (Animal__legs, VInt 4);
    (Animal__tail, VBool true); ("eats", VBoolType)])) ∧
  getattr (Obj Lizard (list_to_map [
    (Reptile__scales, VBool true); (Animal__legs, VInt 4);
    (Animal__tail, VBool true); ("eats", VBoolType)])) "scales"
    = Ok (VStr "has").
Proof.
  assert (Hc : Lizard ∈ reptiles) by compute_done.
  split; [exact Hc|]. split; [vm_compute; reflexivity|].
  apply (proj1 (Reptile_scales_default Lizard Hc) [VInt 4] []).
  vm_compute; reflexivity.
Defined.

(** * Further properties of the program *)

(** ** Reads and writes through a property *)


Lemma setattr_property self n p v :
  type_lookup (ob_type self) n = Some (MProperty p) →
  setattr self n v = fset p self v.
Proof. unfold setattr. by intros ->. Qed.





(** Close a goal that lists the classes an instance may have. *)
Ltac by_class c H :=
  destruct c; try (exfalso; revert H; compute_done).

(** ** The wording of a flag of any value *)



(** ** What a write leaves alone *)

(** Decide a statement about each of the names the program assigns. *)
Ltac each_mutator H :=
  unfold mutators in H; rewrite ?elem_of_cons, elem_of_nil in H;
  destruct_or!; try done; subst.

(** A read only looks at one entry of the dictionary. *)
Lemma fget_local p a b :
  ob_dict a !! slot p = ob_dict b !! slot p → fget p a = fget p b.
Proof.
  intros H. destruct p; simpl in *;
    unfold Animal_legs_get, Animal_tail_get, Dog_name_get, Reptile_scales_get,
      Snake_venom_get, Snake_tail_get, load; by rewrite H.
Qed.

Lemma getattr_local a b n :
  ob_type a = ob_type b →
  ob_dict a !! target (ob_type a) n = ob_dict b !! target (ob_type a) n →
  getattr a n = getattr b n.
Proof.
  unfold getattr, target. intros <-.
  destruct (type_lookup (ob_type a) n) as [[?|p|?]|]; intros H;
    try by rewrite H.
  by apply fget_local.
Qed.

Lemma getattr_setattr_ne self n m v :
  target (ob_type self) n ≠ target (ob_type self) m →
  getattr (setattr self n v) m = getattr self m.
Proof.
  intros Hne. apply getattr_local; rewrite ob_type_setattr; [done|].
  rewrite lookup_setattr. by apply decide_False.
Qed.

(** On every class, distinct public names are kept in distinct entries. *)
Lemma target_distinct c n m :
  n ∈ "multicellular" :: "bark" :: mutators →
  m ∈ "multicellular" :: "bark" :: mutators →
  n ≠ m → target c n ≠ target c m.
Proof.
  intros Hn Hm Hne.
  rewrite !elem_of_cons in Hn, Hm.
  destruct Hn as [->|[->|Hn]], Hm as [->|[->|Hm]]; try done;
    try each_mutator Hn; try each_mutator Hm; try done;
    destruct c; compute_done.
Qed.

(** An entry that none of the program's writes targets survives every run
    of the program's accesses. *)
Lemma system_access_frame c k l :
  (∀ n, n ∈ mutators → target c n ≠ k) →
  Forall system_access l →
  Forall (λ a, ∀ n, writes n a → target c n ≠ k) l.
Proof.
  intros Hk Hl. eapply Forall_impl; [exact Hl|].
  intros [m|m v]; simpl; [done|]. intros Hm n <-. by apply Hk.
Qed.

Lemma final_lookup_system self l k :
  (∀ n, n ∈ mutators → target (ob_type self) n ≠ k) →
  Forall system_access l →
  ob_dict (final self l) !! k = ob_dict self !! k.
Proof. intros Hk Hl. by apply final_lookup_frame, system_access_frame. Qed.

(** ** Independent attributes *)

(** X2. Assigning one of the program's attributes (through a setter, to [eats],
    or as a plain instance attribute where the class has no such property)
    never changes what another of them, [multicellular] or [bark] reads, on
    an instance of any class and in any state. *)
Theorem writes_are_independent (o : obj) (n m : string) (v : value) :
  n ∈ mutators →
  m ∈ "multicellular" :: "bark" :: mutators →
  n ≠ m →
  getattr (setattr o n v) m = getattr o m.
Proof.
  intros Hn Hm Hne. apply getattr_setattr_ne, target_distinct; try done.
  by do 2 apply list_elem_of_further.
Qed.

Lemma writes_are_independent_witness :
  "tail" ∈ mutators ∧
  "legs" ∈ "multicellular" :: "bark" :: mutators ∧
  "tail" ≠ "legs" ∧
  getattr (setattr (Obj Snake {[Animal__legs := VInt 0]}) "tail" (VBool false)) "legs"
    = getattr (Obj Snake {[Animal__legs := VInt 0]}) "legs".
Proof.
  assert (Hn : "tail" ∈ mutators) by compute_done.
  assert (Hm : "legs" ∈ "multicellular" :: "bark" :: mutators) by compute_done.
  assert (Hne : "tail" ≠ "legs") by compute_done.
  split; [exact Hn|]. split; [exact Hm|]. split; [exact Hne|].
  exact (writes_are_independent _ _ _ _ Hn Hm Hne).
Defined.

(** ** Writes in sequence *)

(** X3. A second write to the same attribute replaces the first, and writes to
    two different attributes of the program can be done in either order. *)
Theorem writes_compose (o : obj) (n m : string) (v w : value) :
  setattr (setattr o n v) n w = setattr o n w ∧
  (n ∈ mutators → m ∈ mutators → n ≠ m →
   setattr (setattr o n v) m w = setattr (setattr o m w) n v).
Proof.
  split.
  - rewrite !setattr_store, ob_type_store. unfold store; simpl.
    by rewrite insert_insert_eq.
  - intros Hn Hm Hne.
    rewrite !setattr_store, !ob_type_store. unfold store; simpl. f_equal.
    apply insert_insert_ne.
    apply not_eq_sym, target_distinct; try done;
      by do 2 apply list_elem_of_further.
Qed.

Lemma writes_compose_witness :
  "venom" ∈ mutators ∧ "scales" ∈ mutators ∧ "venom" ≠ "scales" ∧
  setattr (setattr (Obj Snake ∅) "venom" (VBool true)) "scales" (VBool false)
  = setattr (setattr (Obj Snake ∅) "scales" (VBool false)) "venom" (VBool true).
Proof.
  assert (Hn : "venom" ∈ mutators) by compute_done.
  assert (Hm : "scales" ∈ mutators) by compute_done.
  assert (Hne : "venom" ≠ "scales") by compute_done.
  split; [exact Hn|]. split; [exact Hm|]. split; [exact Hne|].
  exact (proj2 (writes_compose _ _ _ _ _) Hn Hm Hne).
Defined.

(** ** Dog: [bark] and [name] *)

Lemma Dog_sound_kept n : n ∈ mutators → target Dog n ≠ Dog__sound.
Proof. intros Hn. each_mutator Hn; compute_done. Qed.

Lemma Dog_bark_unshadowed n : n ∈ mutators → target Dog n ≠ "bark".
Proof. intros Hn. each_mutator Hn; compute_done. Qed.

(** X4. A Dog returned by a constructor call barks "woof", and keeps doing so
    after any run of the program's accesses: [bark] resolves to [Dog.bark],
    the call prints the one line "woof" and leaves the Dog as it was.  The
    method takes no argument. *)
Theorem Dog_bark_woof pos kw d l :
  new Dog pos kw = Ok d →
  Forall system_access l →
  getattr (final d l) "bark" = Ok (VMethod Dog_bark) ∧
  call Dog_bark (final d l) [] [] = Ok (final d l, Some (VStr "woof")) ∧
  (∀ out, call_method (final d l) "bark" [] [] out
          = Done (final d l) (out ++ ["woof"])) ∧
  (∀ v, call Dog_bark (final d l) [v] [] = Raise (TypeError TooManyPositional)).
Proof.
  intros H Hl.
  pose proof (new_type _ _ _ _ H) as Ht.
  pose proof (new_constructed _ _ _ _ H) as (name & legs & tail & Hd).
  assert (Hbark : ob_dict (final d l) !! "bark" = None).
  { rewrite final_lookup_system by (rewrite ?Ht; auto using Dog_bark_unshadowed).
    rewrite Hd. vm_compute; reflexivity. }
  assert (Hsound : load (final d l) Dog__sound = Ok (VStr "woof")).
  { apply load_lookup.
    rewrite final_lookup_system by (rewrite ?Ht; auto using Dog_sound_kept).
    rewrite Hd. vm_compute; reflexivity. }
  assert (Hget : getattr (final d l) "bark" = Ok (VMethod Dog_bark)).
  { unfold getattr. rewrite ob_type_final, Ht. resolve. by rewrite Hbark. }
  assert (Hcall : call Dog_bark (final d l) [] []
                  = Ok (final d l, Some (VStr "woof"))).
  { unfold call, Dog_bark_body. rewrite Hsound. reflexivity. }
  split; [exact Hget|]. split; [exact Hcall|]. split.
  - intros out. unfold call_method. rewrite Hget. simpl.
    unfold mbind at 1, io_bind. simpl. rewrite Hcall. reflexivity.
  - intros v. reflexivity.
Qed.

Lemma Dog_bark_woof_witness :
  new Dog [VStr "George"] [] = Ok (Obj Dog (list_to_map [
    (Dog__name, VStr "George"); (Dog__sound, VStr "woof");
    (Animal__legs, VInt 4); (Animal__tail, VBool true); ("eats", VBoolType)])) ∧
  Forall system_access [Write "name" (VStr "Rex")] ∧
  getattr (final (Obj Dog (list_to_map [
    (Dog__name, VStr "George"); (Dog__sound, VStr "woof");
    (Animal__legs, VInt 4); (Animal__tail, VBool true); ("eats", VBoolType)]))
    [Write "name" (VStr "Rex")]) "bark" = Ok (VMethod Dog_bark).
Proof.
  assert (Hl : Forall system_access [Write "name" (VStr "Rex")]).
  { repeat constructor. }
  split; [vm_compute; reflexivity|]. split; [exact Hl|].
  apply (Dog_bark_woof [VStr "George"] []); [vm_compute; reflexivity|exact Hl].
Defined.

(** X5. The name of a Dog is the first constructor argument, which has no
    default; [name] is a raw passthrough: a read after [name = v] returns
    [v] itself for every value, on every Dog. *)
Theorem Dog_name_passthrough :
  (∀ name, ∃ d, new Dog [name] [] = Ok d ∧ getattr d "name" = Ok name) ∧
  (∀ name legs tail, ∃ d, new Dog [name; legs; tail] [] = Ok d ∧
                          getattr d "name" = Ok name) ∧
  new Dog [] [] = Raise (TypeError (MissingArgs ["name"])) ∧
  (∀ d v, ob_type d = Dog → getattr (setattr d "name" v) "name" = Ok v).
Proof.
  split; [|split; [|split]].
  - intros name. eexists. split; vm_compute; reflexivity.
  - intros name legs tail. eexists. split; vm_compute; reflexivity.
  - vm_compute; reflexivity.
  - intros [c dict] v; simpl; intros ->.
    unfold getattr, setattr; simpl ob_type; resolve; simpl.
    unfold Dog_name_get, Dog_name_set. apply load_store_eq.
Qed.

Lemma Dog_name_passthrough_witness :
  ob_type (Obj Dog ∅) = Dog ∧
  getattr (setattr (Obj Dog ∅) "name" (VInt 7)) "name" = Ok (VInt 7).
Proof.
  split; [reflexivity|].
  apply (proj2 (proj2 (proj2 Dog_name_passthrough))). reflexivity.
Defined.

(** ** Which attributes an instance has *)








(** X7. On an instance returned by a constructor call, a name of the program
    that its class does not define ([name] or [bark] outside Dog, [scales]
    on an Animal or a Dog, [venom] outside Snake, all of them on a
    Bacterium) raises [AttributeError] when read.  Assigning it makes a plain
    instance attribute: the value reads back as it is, with no wording. *)
Theorem undefined_members c pos kw o n :
  new c pos kw = Ok o →
  n ∈ "bark" :: mutators →
  n ≠ "eats" →
  type_lookup c n = None →
  getattr o n = Raise (AttributeError n) ∧
  ∀ v, getattr (setattr o n v) n = Ok v.
Proof.
  intros H Hn Heats Hc.
  assert (Hd : ob_dict o !! n = None).
  { clear Hc. apply elem_of_cons in Hn as [->|Hn];
      [|each_mutator Hn]; constructed_cases c H; vm_compute; reflexivity. }
  pose proof (new_type _ _ _ _ H) as Ht.
  split.
  - rewrite getattr_instance by (by rewrite Ht). unfold load. by rewrite Hd.
  - intros v. rewrite setattr_instance by (by rewrite Ht).
    rewrite getattr_instance by (by rewrite ob_type_store, Ht).
    apply load_store_eq.
Qed.

Lemma undefined_members_witness :
  new Reptile [VInt 4] [] = Ok (Obj Reptile (list_to_map [
    (Reptile__scales, VBool true); (Animal__legs, VInt 4);
    (Animal__tail, VBool true); ("eats", VBoolType)])) ∧
  "name" ∈ "bark" :: mutators ∧ "name" ≠ "eats" ∧
  type_lookup Reptile "name" = None ∧
  getattr (Obj Reptile (list_to_map [
    (Reptile__scales, VBool true); (Animal__legs, VInt 4);
    (Animal__tail, VBool true); ("eats", VBoolType)])) "name"
    = Raise (AttributeError "name").
Proof.
  assert (Hn : "name" ∈ "bark" :: mutators) by compute_done.
  assert (He : "name" ≠ "eats") by compute_done.
  split; [vm_compute; reflexivity|]. split; [exact Hn|]. split; [exact He|].
  split; [vm_compute; reflexivity|].
  apply (undefined_members Reptile [VInt 4] [] _ "name");
    [vm_compute; reflexivity|exact Hn|exact He|vm_compute; reflexivity].
Defined.

(** ** How many arguments a constructor takes *)

Lemma bind_args_too_many sig pos :
  length sig < length pos →
  bind_args sig pos [] = Raise (TypeError TooManyPositional).
Proof. intros H. unfold bind_args. simpl. by rewrite decide_True. Qed.

Lemma new_too_many c f pos :
  type_lookup c "__init__" = Some (MFunction f) →
  length (signature f) < length pos →
  new c pos [] = Raise (TypeError TooManyPositional).
Proof.
  intros Hf Hlen. unfold new. rewrite Hf. unfold call.
  by rewrite bind_args_too_many.
Qed.

(** X8. Called without keywords, a constructor returns an instance exactly when
    the number of arguments lies between the number of parameters without a
    default and the number of parameters (2 to 2 for [Animal], 1 to 3 for
    [Dog], 1 to 2 for [Reptile] and [Lizard], 0 to 2 for [Snake]); fewer
    raise the missing-argument [TypeError], more the too-many one.
    [Bacterium], which defines no [__init__], takes none. *)
Theorem constructor_arity :
  (∀ c f pos,
     type_lookup c "__init__" = Some (MFunction f) →
     ((length pos < required f)%nat →
      ∃ names, new c pos [] = Raise (TypeError (MissingArgs names))) ∧
     ((required f ≤ length pos ≤ length (signature f))%nat →
      ∃ o, new c pos [] = Ok o) ∧
     ((length (signature f) < length pos)%nat →
      new c pos [] = Raise (TypeError TooManyPositional))) ∧
  (∀ pos, pos ≠ [] → new Bacterium pos [] = Raise (TypeError TakesNoArguments)) ∧
  new Bacterium [] [] = Ok (Obj Bacterium ∅).
Proof.
  split; [|split].
  - intros c f pos Hf.
    split; [|split; [|by apply new_too_many]].
    + intros Hlen.
      destruct c; vm_compute in Hf; try discriminate Hf; injection Hf as <-;
        destruct pos as [|a [|b [|x pos]]]; vm_compute in Hlen; try lia;
        eexists; vm_compute; reflexivity.
    + intros Hlen.
      destruct c; vm_compute in Hf; try discriminate Hf; injection Hf as <-;
        destruct pos as [|a [|b [|x [|y pos]]]]; vm_compute in Hlen; try lia;
        eexists; vm_compute; reflexivity.
  - intros [|a pos] Hp; [done|]. reflexivity.
  - reflexivity.
Qed.

Lemma constructor_arity_witness :
  type_lookup Dog "__init__" = Some (MFunction Dog_init) ∧
  (required Dog_init ≤ length [VStr "Rex"; VInt 3]
   ≤ length (signature Dog_init))%nat ∧
  ∃ o, new Dog [VStr "Rex"; VInt 3] [] = Ok o.
Proof.
  assert (Hf : type_lookup Dog "__init__" = Some (MFunction Dog_init))
    by (vm_compute; reflexivity).
  assert (Hlen : (required Dog_init ≤ length [VStr "Rex"; VInt 3]
                  ≤ length (signature Dog_init))%nat) by (vm_compute; lia).
  split; [exact Hf|]. split; [exact Hlen|].
  exact (proj1 (proj2 (proj1 constructor_arity Dog Dog_init _ Hf)) Hlen).
Defined.

(** ** Privacy by name mangling only *)

(** X9. The double underscore does not protect an attribute: on an instance of
    [Animal] or of a class derived from it, as a constructor call returns
    it, the mangled name [_Animal__legs] reads what [legs] reads, and a
    value written under [_Animal__legs] or [_Animal__tail] from outside is
    what [legs] and [tail] then show; only the unmangled names [__legs] and
    [__tail] are not attributes of the instance. *)
Theorem private_names_are_reachable c pos kw o :
  c ≠ Bacterium →
  new c pos kw = Ok o →
  getattr o Animal__legs = getattr o "legs" ∧
  (∀ v, getattr (setattr o Animal__legs v) "legs" = Ok v) ∧
  (c ≠ Snake →
   getattr (setattr o Animal__tail (VBool false)) "tail"
     = Ok (VStr "does not have")) ∧
  getattr o "__legs" = Raise (AttributeError "__legs") ∧
  getattr o "__tail" = Raise (AttributeError "__tail").
Proof.
  intros Hc H. split; [|split; [|split; [|split]]].
  - constructed_cases c H; vm_compute; reflexivity.
  - intros v. constructed_cases c H; vm_compute; reflexivity.
  - intros Hs. constructed_cases c H; try done; vm_compute; reflexivity.
  - constructed_cases c H; vm_compute; reflexivity.
  - constructed_cases c H; vm_compute; reflexivity.
Qed.

Lemma private_names_are_reachable_witness :
  Animal ≠ Bacterium ∧
  new Animal [VInt 6; VBool false] [] = Ok (Obj Animal (list_to_map [
    (Animal__legs, VInt 6); (Animal__tail, VBool false); ("eats", VBoolType)])) ∧
  getattr (Obj Animal (list_to_map [
    (Animal__legs, VInt 6); (Animal__tail, VBool false); ("eats", VBoolType)]))
    "__legs" = Raise (AttributeError "__legs").
Proof.
  assert (Hc : Animal ≠ Bacterium) by done.
  split; [exact Hc|]. split; [vm_compute; reflexivity|].
  apply (private_names_are_reachable Animal [VInt 6; VBool false] [] _ Hc).
  vm_compute; reflexivity.
Defined.

(** ** Constructor arguments of the reptiles *)



(** ** The parent view *)

(** X11. [super(Snake, x)] needs a Snake: on an instance of any other class it
    raises [TypeError].  On a Snake it starts the search at [Reptile] and
    never looks into the instance: the inherited properties [legs] and
    [scales] read as they do on the Snake itself, but [venom], which only
    [Snake] defines, and the instance attribute [eats] are not found.  For
    the classes that do not override [tail], the parent view of [tail] is
    the plain read. *)
Theorem parent_view :
  (∀ o n, ob_type o ≠ Snake →
          super_getattr Snake o n = Raise (TypeError NotAnInstance)) ∧
  (∀ s, ob_type s = Snake →
        super_getattr Snake s "legs" = getattr s "legs" ∧
        super_getattr Snake s "scales" = getattr s "scales" ∧
        super_getattr Snake s "venom" = Raise (AttributeError "venom") ∧
        super_getattr Snake s "eats" = Raise (AttributeError "eats") ∧
        super_getattr Snake s "multicellular" = Ok (VBool true)) ∧
  (∀ pos kw s, new Snake pos kw = Ok s →
               getattr s "eats" = Ok VBoolType ∧
               getattr s "venom" = Ok (VStr "is not")) ∧
  (∀ o, ob_type o ∈ [Dog; Reptile; Lizard] →
        super_getattr (ob_type o) o "tail" = getattr o "tail").
Proof.
  split; [|split; [|split]].
  - intros [c d] n; simpl; intros Hc. unfold super_getattr; simpl ob_type.
    destruct c; try done; by resolve.
  - intros [c d]; simpl; intros ->.
    unfold super_getattr, getattr; simpl ob_type; resolve.
    by repeat split.
  - intros pos kw s H.
    apply new_constructed, Snake_constructed in H as [legs ->].
    split; vm_compute; reflexivity.
  - intros [c d]; simpl; intros Hc.
    by_class c Hc; unfold super_getattr, getattr; simpl ob_type; by resolve.
Qed.

Lemma parent_view_witness :
  ob_type (Obj Dog ∅) ≠ Snake ∧
  super_getattr Snake (Obj Dog ∅) "tail" = Raise (TypeError NotAnInstance).
Proof.
  assert (Hc : ob_type (Obj Dog ∅) ≠ Snake) by done.
  split; [exact Hc|].
  exact (proj1 parent_view (Obj Dog ∅) "tail" Hc).
Defined.

(** ** The demonstration script *)

Lemma appends_ret {A} (a : A) : appends (mret a).
Proof. intros out. unfold mret, io_ret; simpl. by rewrite app_nil_r. Qed.

Lemma appends_stop {A} f : appends (@stop A f).
Proof. intros out. unfold stop; simpl. by rewrite app_nil_r. Qed.

Lemma appends_print s : appends (print s).
Proof. intros out. reflexivity. Qed.

Lemma appends_bind {A B} (m : io A) (k : A → io B) :
  appends m → (∀ a, appends (k a)) → appends (m ≫= k).
Proof.
  intros Hm Hk out. unfold mbind, io_bind. rewrite (Hm out).
  destruct (m []) as [a o|f o]; simpl; [|done].
  rewrite (Hk a (out ++ o)%list), (Hk a o).
  destruct (k a []); simpl; by rewrite app_assoc.
Qed.

Lemma appends_lift {A} (r : result A) : appends (lift r).
Proof. destruct r; [apply appends_ret|apply appends_stop]. Qed.

Lemma appends_text v : appends (text v).
Proof. unfold text. destruct (py_str v); [apply appends_ret|apply appends_stop]. Qed.

Lemma appends_field self n : appends (field self n).
Proof.
  unfold field. apply appends_bind; [apply appends_lift|].
  intros v. apply appends_text.
Qed.

Lemma appends_call_method self n pos kw : appends (call_method self n pos kw).
Proof.
  unfold call_method. apply appends_bind; [apply appends_lift|].
  intros [| | | | |f]; try apply appends_stop.
  - destruct kw as [|[k v] kw]; [|apply appends_stop].
    case_decide; [apply appends_ret|apply appends_stop].
  - apply appends_bind; [apply appends_lift|]. intros [o [line|]]; simpl.
    + apply appends_bind; [apply appends_text|]. intros s.
      apply appends_bind; [apply appends_print|]. intros _. apply appends_ret.
    + apply appends_ret.
Qed.

(** Follow the statements of a script one by one. *)
Ltac appends_step :=
  lazy beta zeta;
  lazymatch goal with
  | |- appends (_ ≫= _) => apply appends_bind; [|intros ?]
  | |- appends (print _) => apply appends_print
  | |- appends (lift _) => apply appends_lift
  | |- appends (text _) => apply appends_text
  | |- appends (field _ _) => apply appends_field
  | |- appends (call_method _ _ _ _) => apply appends_call_method
  | |- appends (mret _) => apply appends_ret
  end.

Lemma main_appends out : main out = prepend out (main []).
Proof. revert out. change (appends main). unfold main. repeat appends_step. Qed.

(** X12. Whatever was printed before, the script raises nothing and adds these
    26 lines to the output. *)
Theorem main_transcript (out : list string) :
  main out = Done tt (out ++ [
    "Speak George!";
    "woof";
    "George has 4 legs and has a tail";
    "";
    "Speak Fido!";
    "woof";
    "woof";
    "Fido has 3 legs and does not have a tail";
    "";
    "A croc has 4 legs, has a tail and has scales";
    "A gecko has 4 legs, has a tail and has scales";
    "";
    "A rattlesnake has 0 legs, is mostly a tail, has scales, and is venomous.";
    "A cornsnake has 0 legs, is mostly a tail, does not have scales, and is not venomous.";
    "";
    "A cornsnake eats: True";
    "A cornsnake without a tail must be dead because it is only a head :D";
    "A living cornsnake has a tail";
    "A cornsnake can eat after it dies: False";
    "";
    "A cornsnake is multicellular: True";
    "";
    "I'm not sure what kind of Animal has 6 legs and does not have a tail!";
    "At least we know it is True that it eats, and it is True that it is multicellular";
    "";
    "Streptococcus is multicellular: False"]).
Proof.
  rewrite main_appends.
  match goal with
  | |- _ = Done tt (out ++ ?lines) =>
      replace (main []) with (Done tt lines) by (vm_compute; reflexivity)
  end.
  reflexivity.
Qed.

(** ** Substituting a subclass instance *)

Lemma agree_target a b n :
  agree a b n → target (ob_type b) n = target (ob_type a) n.
Proof. intros [Ht _]. unfold target. by rewrite Ht. Qed.

Lemma agree_getattr a b n : agree a b n → getattr a n = getattr b n.
Proof.
  intros [Ht Hd]. unfold getattr, target in *. rewrite <- Ht.
  destruct (type_lookup (ob_type a) n) as [[?|p|?]|]; try by rewrite Hd.
  by apply fget_local.
Qed.

Lemma agree_setattr a b n m v :
  agree a b n → agree a b m →
  agree (setattr a n v) (setattr b n v) m.
Proof.
  intros Hn [Ht Hd]. split.
  - by rewrite !ob_type_setattr.
  - rewrite ob_type_setattr, !lookup_setattr, (agree_target _ _ _ Hn).
    by case_decide.
Qed.

(** Instances that agree on a set of attributes cannot be told apart by
    accesses to those attributes. *)
Lemma agree_observe names a b l :
  (∀ n, n ∈ names → agree a b n) →
  Forall (within names) l →
  observe a l = observe b l.
Proof.
  intros Hab Hl; revert a b Hab.
  induction Hl as [|[n|n v] l Hn _ IH]; intros a b Hab; [done|..]; simpl in Hn.
  - rewrite !observe_Read. f_equal; [by apply agree_getattr, Hab|by apply IH].
  - rewrite !observe_Write. apply IH.
    intros m Hm. apply agree_setattr; by apply Hab.
Qed.

(** Decide a statement about each name of a literal list. *)
Ltac each_name H :=
  rewrite ?elem_of_cons, elem_of_nil in H; destruct_or!; try done; subst.

(** X13. A [Dog], a [Reptile] or a [Lizard] can stand in for an [Animal] built
    with the same leg count and tail: every run of reads and writes of the
    attributes [Animal] provides returns the same results on both.  A
    [Snake] cannot (its [tail] reads differently), but it can stand in for
    a [Reptile] wherever [tail] and [venom] are not used. *)
Theorem subclasses_substitute (name legs tail : value) :
  ∃ a d r z s,
    new Animal [legs; tail] [] = Ok a ∧
    new Dog [name; legs; tail] [] = Ok d ∧
    new Reptile [legs; tail] [] = Ok r ∧
    new Lizard [legs; tail] [] = Ok z ∧
    new Snake [legs; tail] [] = Ok s ∧
    (∀ l, Forall (within Animal_interface) l →
          observe d l = observe a l ∧
          observe r l = observe a l ∧
          observe z l = observe a l) ∧
    observe s [Read "tail"] ≠ observe a [Read "tail"] ∧
    (∀ l, Forall (within ["legs"; "scales"; "eats"; "multicellular"]) l →
          observe s l = observe r l).
Proof.
  exists (Animal___init__ (Obj Animal ∅) legs tail),
         (Dog___init__ (Obj Dog ∅) name legs tail),
         (Reptile___init__ (Obj Reptile ∅) legs tail),
         (Reptile___init__ (Obj Lizard ∅) legs tail),
         (Reptile___init__
            (store (store (Obj Snake ∅) Snake__venom (VBool false))
                   Snake__tail (VBool true))
            legs (VBool true)).
  do 5 (split; [vm_compute; reflexivity|]).
  split; [|split].
  - intros l Hl.
    split; [|split]; apply (agree_observe Animal_interface); try done;
      intros n Hn; unfold Animal_interface in Hn; each_name Hn;
      split; vm_compute; reflexivity.
  - unfold observe; simpl. intros [= H]. revert H.
    unfold getattr; simpl ob_type; resolve; simpl.
    unfold Snake_tail_get, Animal_tail_get.
    rewrite (load_lookup _ _ (VBool true)) by (vm_compute; reflexivity).
    rewrite (load_lookup _ _ tail) by (vm_compute; reflexivity). simpl.
    by destruct (py_eq tail (VBool true)).
  - intros l Hl.
    apply (agree_observe ["legs"; "scales"; "eats"; "multicellular"]); try done.
    intros n Hn; each_name Hn; split; vm_compute; reflexivity.
Qed.

Lemma subclasses_substitute_witness :
  Forall (within Animal_interface) [Write "tail" (VInt 1); Read "tail"] ∧
  ∃ a d, new Animal [VInt 4; VBool false] [] = Ok a ∧
         new Dog [VStr "Rex"; VInt 4; VBool false] [] = Ok d ∧
         observe d [Write "tail" (VInt 1); Read "tail"]
         = observe a [Write "tail" (VInt 1); Read "tail"].
Proof.
  assert (Hl : Forall (within Animal_interface)
                 [Write "tail" (VInt 1); Read "tail"]).
  { repeat constructor. }
  split; [exact Hl|].
  destruct (subclasses_substitute (VStr "Rex") (VInt 4) (VBool false))
    as (a & d & r & z & s & Ha & Hd & _ & _ & _ & Hobs & _).
  exists a, d. split; [exact Ha|]. split; [exact Hd|].
  exact (proj1 (Hobs _ Hl)).
Defined.
